(** * Tutor-GPT OpenWebUI pipe: a shallow embedding of [Pipe.pipe]

    Source: [src/openwebui-pipe/tutor_gpt_pipe.py].

    The async generator [Pipe.pipe] is embedded as a computation in a small
    generator monad: the state carries the caller's [body] dict (which the
    source mutates in place), the chunks yielded so far and the requests
    handed to the HTTP client; a computation ends normally or with a raised
    Python exception.  The remote service is a value of type [awaited response]
    that says what each network wait of the source produces.

    Python [str] values are Rocq strings whose characters are the code
    points U+0000..U+00FF; Python [int] is [Z].  Logging writes only to the
    logger, never to the yielded sequence, the body or the request; it is
    left out of the state. *)

From Stdlib Require Import ZArith String Ascii List Bool Lia DecimalString.
From stdpp Require Import gmap strings list fin_maps.
Import ListNotations.

Local Open Scope Z_scope.
Set Warnings "-register-all".
Set Default Proof Using "Type".

(** ** Python strings *)

Module PyStr.

(** The two characters a Rocq string literal cannot hold directly. *)
Definition dquote : ascii := ascii_of_nat 34.
Definition newline : ascii := ascii_of_nat 10.
Definition backslash : ascii := ascii_of_nat 92.

Definition chr (c : ascii) : string := String c EmptyString.

(** [s.startswith(p)] *)
Definition startswith (p s : string) : bool := String.prefix p s.

(** [s.endswith(p)]: [p] is [s] or ends a tail of [s]. *)
Fixpoint endswith (p s : string) : bool :=
  String.eqb p s
  || match s with
     | EmptyString => false
     | String _ s' => endswith p s'
     end.

(** [not s] for a [str]: true exactly on the empty string. *)
Definition falsy (s : string) : bool :=
  match s with EmptyString => true | String _ _ => false end.

(** [s.rstrip(c)] for a one-character argument: every trailing [c] goes. *)
Fixpoint rstrip (c : ascii) (s : string) : string :=
  match s with
  | EmptyString => EmptyString
  | String a s' =>
      match rstrip c s' with
      | EmptyString => if Ascii.eqb a c then EmptyString else chr a
      | String _ _ as r => String a r
      end
  end.

(** [str(n)] / [f"{n}"] for an [int]. *)
Definition str_int (n : Z) : string := NilZero.string_of_int (Z.to_int n).

(** A run of [n] copies of [c]. *)
Fixpoint replicate_char (n : nat) (c : ascii) : string :=
  match n with
  | O => EmptyString
  | S n' => String c (replicate_char n' c)
  end.

End PyStr.

(** ** [json.dumps] on the values the pipe serialises

    CPython's [json.dumps] with its defaults ([ensure_ascii=True],
    separators [", "] and [": "]).  The pipe only ever serialises a dict
    with the single key ['error'] and a [str] value. *)

Module Json.
Import PyStr.

Definition hex_digit (n : N) : ascii :=
  match n with
  | 0%N => "0" | 1%N => "1" | 2%N => "2" | 3%N => "3"
  | 4%N => "4" | 5%N => "5" | 6%N => "6" | 7%N => "7"
  | 8%N => "8" | 9%N => "9" | 10%N => "a" | 11%N => "b"
  | 12%N => "c" | 13%N => "d" | 14%N => "e" | _ => "f"
  end%char.

(** [ESCAPE_ASCII] / [ESCAPE_DCT] of [json.encoder] on the code points of
    the model's strings, U+0000..U+00FF: the characters from space to
    tilde other than the quote and the backslash stay; the rest is
    escaped, by a short escape where one exists and by [\u00XX]
    otherwise.  [escape_codepoint] further down covers every code point
    of a Python [str] and is this function on the first 256. *)
Definition escape_char (c : ascii) : string :=
  let n := N_of_ascii c in
  if (n =? 34)%N then String backslash (chr dquote)
  else if (n =? 92)%N then String backslash (chr backslash)
  else if (n =? 10)%N then String backslash "n"
  else if (n =? 13)%N then String backslash "r"
  else if (n =? 9)%N then String backslash "t"
  else if (n =? 8)%N then String backslash "b"
  else if (n =? 12)%N then String backslash "f"
  else if ((32 <=? n) && (n <=? 126))%N then chr c
  else String backslash
         ("u00" +:+ String (hex_digit (n / 16)) (chr (hex_digit (n mod 16)))).

Fixpoint escape (s : string) : string :=
  match s with
  | EmptyString => EmptyString
  | String c s' => escape_char c +:+ escape s'
  end.

(** [json.dumps(s)] for a [str]. *)
Definition dumps_str (s : string) : string :=
  String dquote (escape s +:+ chr dquote).

(** [json.dumps({'error': msg})] *)
Definition dumps_error (msg : string) : string :=
  "{" +:+ dumps_str "error" +:+ ": " +:+ dumps_str msg +:+ "}".

End Json.

Import PyStr.

(** ** Data model *)

(** JSON-compatible Python values: what the host puts in [body] and in
    [__user__], and what [json.loads] returns. *)
Inductive pyval : Type :=
| PNone
| PBool (b : bool)
| PInt (n : Z)
| PStr (s : string)
| PList (l : list pyval)
| PDict (d : list (string * pyval)).

(** [Pipe.Valves] *)
Record Valves : Type := mkValves {
  PROXY_URL : string;
  PROXY_API_KEY : string;
  TIMEOUT_SECONDS : Z;
  DEBUG_MODE : bool
}.

(** Python exceptions, by the classes the [except] clauses of [pipe] tell
    apart.  [BaseExceptionOnly] stands for what derives from
    [BaseException] but not from [Exception] ([asyncio.CancelledError],
    [KeyboardInterrupt]): a bare [except:] catches it, [except Exception]
    does not. *)
Inductive exn_class : Type :=
| ConnectError
| TimeoutException
| OtherException
| BaseExceptionOnly.

Record exn : Type := mkExn { exn_cls : exn_class; exn_str : string }.

(** [isinstance(e, Exception)] *)
Definition is_Exception (e : exn) : bool :=
  match exn_cls e with
  | BaseExceptionOnly => false
  | _ => true
  end.

(** What an [await] on the network gives: a value or a raised exception. *)
Inductive awaited (A : Type) : Type :=
| Got (a : A)
| Raises (e : exn).
Arguments Got {A} a.
Arguments Raises {A} e.

(** The remote side of one [client.stream(...)] exchange, as far as [pipe]
    looks at it: the status, what [response.aread()] gives, the lines
    [response.aiter_lines()] delivers and how that iteration ends ([None]:
    end of body, [Some e]: [e] is raised after the last delivered line).
    These, with the entry into [client.stream], are the network waits of
    the source and the places where the remote can make it fail; leaving
    the two [async with] blocks closes the connection and is taken not to
    raise. *)
Record response : Type := mkResponse {
  status_code : Z;
  aread : awaited string;
  aiter_lines : list string;
  aiter_end : option exn
}.

(** The outbound call, as handed to [client.stream]. *)
Record request : Type := mkRequest {
  req_method : string;
  req_url : string;
  req_headers : list (string * string);
  req_json : gmap string pyval;
  req_timeout : Z
}.

(** [headers[name]] on the header list of a request. *)
Fixpoint header (name : string) (hs : list (string * string)) : option string :=
  match hs with
  | [] => None
  | (k, v) :: hs' => if String.eqb k name then Some v else header name hs'
  end.

(** A yielded chunk, tagged by the [yield] that produced it: the relay's
    [yield f"{line}\n\n"] or one of the error paths'
    [yield f"data: {json.dumps({'error': error_msg})}\n\n"]. *)
Inductive chunk : Type :=
| Forwarded (line : string)
| ErrorChunk (error_msg : string).

(** The text the host receives for a chunk. *)
Definition chunk_text (c : chunk) : string :=
  match c with
  | Forwarded line => line +:+ String newline (chr newline)
  | ErrorChunk error_msg =>
      "data: " +:+ Json.dumps_error error_msg +:+ String newline (chr newline)
  end.

Definition is_error_chunk (c : chunk) : bool :=
  match c with
  | Forwarded _ => false
  | ErrorChunk _ => true
  end.

(** ** The generator monad *)

Module Gen.

(** What one run of the generator has done so far. *)
Record state : Type := mkState {
  body : gmap string pyval;        (* the caller's dict, shared with the caller *)
  out : list chunk;                (* chunks yielded, oldest first *)
  calls : list request             (* requests handed to the HTTP client *)
}.

Inductive result (A : Type) : Type :=
| Ok (a : A)
| Raise (e : exn).
Arguments Ok {A} a.
Arguments Raise {A} e.

Definition t (A : Type) : Type := state -> state * result A.

Definition ret {A} (a : A) : t A := fun s => (s, Ok a).

Definition bind {A B} (c : t A) (k : A -> t B) : t B :=
  fun s =>
    match c s with
    | (s', Ok a) => k a s'
    | (s', Raise e) => (s', Raise e)
    end.

Definition raise {A} (e : exn) : t A := fun s => (s, Raise e).

(** [yield c] *)
Definition yield (c : chunk) : t unit :=
  fun s => ({| body := body s; out := out s ++ [c]; calls := calls s |}, Ok tt).

(** [body[k] = v] *)
Definition setitem (k : string) (v : pyval) : t unit :=
  fun s => ({| body := <[k := v]> (body s); out := out s; calls := calls s |}, Ok tt).

(** [await x] *)
Definition await {A} (x : awaited A) : t A :=
  match x with
  | Got a => ret a
  | Raises e => raise e
  end.

(** [try: c  except <classes>: h e]: what was yielded before the
    exception stays yielded; a handler that does not match re-raises. *)
Definition try_except {A} (c : t A) (h : exn -> t A) : t A :=
  fun s =>
    match c s with
    | (s', Ok a) => (s', Ok a)
    | (s', Raise e) => h e s'
    end.

Definition init (b : gmap string pyval) : state :=
  {| body := b; out := []; calls := [] |}.

End Gen.

Notation "x <- c ;; k" := (Gen.bind c (fun x => k))
  (at level 100, c at next level, right associativity).
Notation "c ;;; k" := (Gen.bind c (fun _ => k))
  (at level 100, right associativity).

(** ** [Pipe.pipe] *)

(** Truth value of a dict: [len(d) != 0]. *)
Definition dict_truthy (d : gmap string pyval) : bool := negb (Nat.eqb (size d) 0).

Section Pipe.

(** Python built-ins that [pipe] calls and that are no part of the
    repository: [str(v)] as an f-string applies it to a JSON-compatible
    value, and [json.loads] ([None] when it raises). *)
Variable py_str : pyval -> string.
Variable json_loads : string -> option pyval.

(** What [json.loads] raises on a document it rejects (a [ValueError]). *)
Definition JSONDecodeError : exn :=
  {| exn_cls := OtherException; exn_str := "JSONDecodeError" |}.

Definition loads (doc : string) : Gen.t pyval :=
  match json_loads doc with
  | Some v => Gen.ret v
  | None => Gen.raise JSONDecodeError
  end.

(** Lines 101-104.  ["id" in __user__] and [__user__['id']] are one
    lookup here. *)
Definition resolve_user_id (__user__ : option (gmap string pyval)) : string :=
  match __user__ with
  | Some u =>
      if dict_truthy u then
        match u !! "id" with
        | Some v => "openwebui_" +:+ py_str v
        | None => "openwebui-user"
        end
      else "openwebui-user"
  | None => "openwebui-user"
  end.

(** Lines 118-122. *)
Definition build_headers (valves : Valves) (user_id : string)
  : list (string * string) :=
  [ ("Authorization", "Bearer " +:+ PROXY_API_KEY valves);
    ("Content-Type", "application/json");
    ("X-User-Id", user_id) ].

(** Line 128. *)
Definition target_url (valves : Valves) : string :=
  rstrip "/" (PROXY_URL valves) +:+ "/v1/chat/completions".

(** Lines 131-140: [httpx.AsyncClient(timeout=...)] and
    [client.stream("POST", url, headers=headers, json=body)].  The request
    carries the body dict as it is at the time of the call; entering the
    context manager either gives the response or raises. *)
Definition client_stream (transport : request -> awaited response)
    (timeout : Z) (method url : string) (headers : list (string * string))
  : Gen.t response :=
  fun s =>
    let req := {| req_method := method; req_url := url; req_headers := headers;
                  req_json := Gen.body s; req_timeout := timeout |} in
    Gen.await (transport req)
      {| Gen.body := Gen.body s; Gen.out := Gen.out s;
         Gen.calls := Gen.calls s ++ [req] |}.

(** Lines 165-173: the [async for] over [response.aiter_lines()]. *)
Fixpoint relay (lines : list string) (fin : option exn) : Gen.t unit :=
  match lines with
  | [] =>
      match fin with
      | None => Gen.ret tt
      | Some e => Gen.raise e
      end
  | line :: rest =>
      (if falsy line then Gen.ret tt
       else if startswith "data: " line then Gen.yield (Forwarded line)
       else Gen.ret tt) ;;;
      relay rest fin
  end.

(** Lines 153-162: the branch [status_code >= 400], with its bare
    [except:]. *)
Definition proxy_error (response : response) : Gen.t unit :=
  let error_msg := "Memory proxy error: HTTP " +:+ str_int (status_code response) in
  Gen.try_except
    (error_body <- Gen.await (aread response) ;;
     error_details <- loads error_body ;;
     Gen.yield (ErrorChunk (error_msg +:+ ": " +:+ py_str error_details)))
    (fun _ => Gen.yield (ErrorChunk error_msg)).

(** Lines 141-173: what happens inside [async with client.stream(...)]. *)
Definition on_response (url : string) (response : response) : Gen.t unit :=
  if status_code response =? 401 then
    Gen.yield (ErrorChunk "Authentication failed. Please check your PROXY_API_KEY.")
  else if status_code response =? 404 then
    Gen.yield (ErrorChunk ("Memory proxy not found at " +:+ url
                           +:+ ". Is the server running?"))
  else if status_code response >=? 400 then
    proxy_error response
  else
    relay (aiter_lines response) (aiter_end response).

(** Lines 175-186: the three [except] clauses of the outer [try]. *)
Definition on_failure (valves : Valves) (url : string) (e : exn) : Gen.t unit :=
  match exn_cls e with
  | ConnectError =>
      Gen.yield (ErrorChunk ("Cannot connect to memory proxy at " +:+ url
                             +:+ ". Is the server running?"))
  | TimeoutException =>
      Gen.yield (ErrorChunk ("Request timed out after "
                             +:+ str_int (TIMEOUT_SECONDS valves) +:+ "s"))
  | OtherException =>
      Gen.yield (ErrorChunk ("Unexpected error: " +:+ exn_str e))
  | BaseExceptionOnly => Gen.raise e
  end.

(** Lines 83-186.  The [DEBUG_MODE] branches (lines 106-108, 132-133,
    171-172) only write to the logger; [json.dumps(body, indent=2)] there
    cannot fail on a JSON-compatible body. *)
Definition pipe (valves : Valves) (transport : request -> awaited response)
    (__user__ : option (gmap string pyval)) : Gen.t unit :=
  let user_id := resolve_user_id __user__ in
  if falsy (PROXY_API_KEY valves) then
    Gen.yield (ErrorChunk
      "PROXY_API_KEY is not configured. Please set it in the Valves configuration.")
  else
    let headers := build_headers valves user_id in
    Gen.setitem "stream" (PBool true) ;;;
    let url := target_url valves in
    Gen.try_except
      (response <- client_stream transport (TIMEOUT_SECONDS valves)
                     "POST" url headers ;;
       on_response url response)
      (on_failure valves url).

(** One call of [pipe] driven to its end by the host. *)
Definition invoke (valves : Valves) (transport : request -> awaited response)
    (body : gmap string pyval) (__user__ : option (gmap string pyval))
  : Gen.state * Gen.result unit :=
  pipe valves transport __user__ (Gen.init body).

End Pipe.

(** What the host observes of one invocation. *)
Definition yielded (r : Gen.state * Gen.result unit) : list chunk := Gen.out (fst r).
Definition yielded_text (r : Gen.state * Gen.result unit) : list string :=
  map chunk_text (yielded r).
Definition sent (r : Gen.state * Gen.result unit) : list request := Gen.calls (fst r).
Definition body_after (r : Gen.state * Gen.result unit) : gmap string pyval :=
  Gen.body (fst r).
Definition outcome (r : Gen.state * Gen.result unit) : Gen.result unit := snd r.

Definition error_chunks (r : Gen.state * Gen.result unit) : list chunk :=
  List.filter is_error_chunk (yielded r).

(** ** The spec's wording, for comparison *)

(** "PROXY_URL with exactly one trailing slash stripped, if present". *)
Fixpoint strip_one_trailing_slash (s : string) : string :=
  match s with
  | EmptyString => EmptyString
  | String a EmptyString => if Ascii.eqb a "/" then EmptyString else chr a
  | String a (String _ _ as s') => String a (strip_one_trailing_slash s')
  end.

Definition spec_target_url (valves : Valves) : string :=
  strip_one_trailing_slash (PROXY_URL valves) +:+ "/v1/chat/completions".

(** ** Sample inputs *)

Module Sample.

(** [str] on the scalars; containers are not rendered (their [repr] is
    not modelled) and the samples below hold none. *)
Definition py_str (v : pyval) : string :=
  match v with
  | PNone => "None"
  | PBool true => "True"
  | PBool false => "False"
  | PInt n => str_int n
  | PStr s => s
  | PList _ => "[...]"
  | PDict _ => "{...}"
  end.

(** Agrees with [json.loads] on the documents used below: the literal
    [null], [true], [false] and [42], and text that is no JSON value. *)
Definition json_loads (doc : string) : option pyval :=
  if String.eqb doc "null" then Some PNone
  else if String.eqb doc "true" then Some (PBool true)
  else if String.eqb doc "false" then Some (PBool false)
  else if String.eqb doc "42" then Some (PInt 42)
  else None.

Definition valves (url key : string) : Valves :=
  {| PROXY_URL := url; PROXY_API_KEY := key; TIMEOUT_SECONDS := 300;
     DEBUG_MODE := false |}.

Definition ok_response (lines : list string) : response :=
  {| status_code := 200; aread := Got EmptyString;
     aiter_lines := lines; aiter_end := None |}.


Definition timeout_exn : exn :=
  {| exn_cls := TimeoutException; exn_str := "ReadTimeout" |}.
Definition connect_exn : exn :=
  {| exn_cls := ConnectError; exn_str := "All connection attempts failed" |}.

Definition body0 : gmap string pyval :=
  {[ "model" := PStr "tutor-gpt"; "stream" := PBool false ]}.

Definition user0 : gmap string pyval := {[ "id" := PStr "abc123" ]}.

Definition run := invoke py_str json_loads.

(** A mock transport that answers every request the same way. *)
Definition always (rem : awaited response) : request -> awaited response :=
  fun _ => rem.

Definition keyed : Valves := valves "http://x/" "secret".
Definition unkeyed : Valves := valves "http://x/" EmptyString.
Definition two_slashes : Valves := valves "http://x//" "secret".

(** [data: {"x":1}] and [data: {"x":2}], each followed by an empty line,
    with an [event:] line in between. *)
Definition line1 : string := "data: {" +:+ chr dquote +:+ "x" +:+ chr dquote +:+ ":1}".
Definition line2 : string := "data: {" +:+ chr dquote +:+ "x" +:+ chr dquote +:+ ":2}".
Definition two_lines : list string :=
  [line1; EmptyString; "event: ping"; line2; EmptyString].


(** A success status whose body breaks off after one line. *)
Definition broken_stream : response :=
  {| status_code := 200; aread := Got EmptyString;
     aiter_lines := [line1]; aiter_end := Some timeout_exn |}.

End Sample.

(** ** Statement vocabulary *)

(** The blank line that closes a server-sent-event frame. *)
Definition blank_line : string := String newline (chr newline).

(** The lines of a body that the relay forwards. *)
Definition data_lines (lines : list string) : list string :=
  List.filter (startswith "data: ") lines.

(** The request [pipe] hands to the HTTP client once the key check has
    passed (lemma [sent_outbound] below). *)
Definition outbound (py_str : pyval -> string) (valves : Valves)
    (body : gmap string pyval) (__user__ : option (gmap string pyval)) : request :=
  {| req_method := "POST";
     req_url := target_url valves;
     req_headers := build_headers valves (resolve_user_id py_str __user__);
     req_json := <["stream" := PBool true]> body;
     req_timeout := TIMEOUT_SECONDS valves |}.




(** A chunk text is a complete server-sent-event frame. *)
Definition sse_frame (text : string) : Prop :=
  startswith "data: " text = true /\ endswith blank_line text = true.

(** A chunk as the two [yield] sites produce it: a forwarded line passed
    the [startswith("data: ")] test. *)
Definition framed (c : chunk) : Prop :=
  match c with
  | Forwarded line => startswith "data: " line = true
  | ErrorChunk _ => True
  end.

(** The state in which the network phase starts. *)
Definition network_state (py_str : pyval -> string) (valves : Valves)
    (body : gmap string pyval)
    (__user__ : option (gmap string pyval)) : Gen.state :=
  {| Gen.body := <["stream" := PBool true]> body;
     Gen.out := [];
     Gen.calls := [outbound py_str valves body __user__] |}.


(** ** Construction, model listing and logging

    The rest of [tutor_gpt_pipe.py]: the defaults of [Pipe.Valves], which
    are read from the process environment when the module is imported,
    [Pipe.__init__], [Pipe.pipes], and the calls to [self.logger] that
    [pipe] makes along the way. *)

(** [os.getenv(name, default)] *)
Definition getenv (environ : gmap string string) (name default : string) : string :=
  match environ !! name with
  | Some value => value
  | None => default
  end.

(** The field defaults of [Pipe.Valves] (lines 42-57).  The two
    [os.getenv] calls stand in the class body: they run once, when the
    module is imported, in the environment of that moment, and [Valves()]
    returns these values from then on. *)
Definition Valves_defaults (environ_at_import : gmap string string) : Valves :=
  {| PROXY_URL :=
       getenv environ_at_import "TUTOR_GPT_PROXY_URL" "http://localhost:8081";
     PROXY_API_KEY := getenv environ_at_import "TUTOR_GPT_PROXY_API_KEY" EmptyString;
     TIMEOUT_SECONDS := 300;
     DEBUG_MODE := false |}.

(** The levels of [logging] that the pipe uses, with their numbers. *)
Inductive log_level : Type := DEBUG | INFO | ERROR.

Definition level_no (l : log_level) : Z :=
  match l with
  | DEBUG => 10
  | INFO => 20
  | ERROR => 40
  end.

(** A [Pipe] instance: its valves and the level of its logger. *)
Record Pipe : Type := mkPipe {
  self_valves : Valves;
  self_logger_level : log_level
}.

(** [Pipe.__init__] (lines 59-68).  [self.valves = self.Valves()] takes
    the defaults of the class; the environment is not read here. *)
Definition __init__ (defaults : Valves) : Pipe :=
  let valves := defaults in
  {| self_valves := valves;
     self_logger_level := if DEBUG_MODE valves then DEBUG else INFO |}.

(** [Pipe()] evaluated while the environment is [environ_now], the module
    having been imported while it was [environ_at_import]. *)
Definition Pipe_new (environ_at_import environ_now : gmap string string) : Pipe :=
  __init__ (Valves_defaults environ_at_import).

(** The model descriptor returned by [Pipe.pipes] (lines 70-81). *)
Record model_descriptor : Type := mkModel { model_id : string; model_name : string }.

Definition pipes : list model_descriptor :=
  [ {| model_id := "tutor-gpt"; model_name := "Bloom Tutor (Tutor-GPT)" |} ].

(** One call to [self.logger.debug] or [self.logger.error]. *)
Record log_record : Type := mkLog {
  log_level_of : log_level;
  log_msg : string;
  log_exc_info : bool
}.

Definition is_error_record (r : log_record) : bool :=
  match log_level_of r with
  | ERROR => true
  | _ => false
  end.

(** What a logger whose level is [threshold] lets through:
    [Logger.isEnabledFor]. *)
Definition emitted (threshold : log_level) (log : list log_record) : list log_record :=
  List.filter (fun r => level_no threshold <=? level_no (log_level_of r)) log.

(** [s[:n]] *)
Fixpoint take_chars (n : nat) (s : string) : string :=
  match n, s with
  | O, _ => EmptyString
  | S _, EmptyString => EmptyString
  | S n', String c s' => String c (take_chars n' s')
  end.

(** The generator monad with the log calls recorded. *)
Module LGen.

Record state : Type := mkState {
  gen : Gen.state;
  log : list log_record           (* calls to the logger, oldest first *)
}.

Definition t (A : Type) : Type := state -> state * Gen.result A.

Definition ret {A} (a : A) : t A := fun s => (s, Gen.Ok a).

Definition bind {A B} (c : t A) (k : A -> t B) : t B :=
  fun s =>
    match c s with
    | (s', Gen.Ok a) => k a s'
    | (s', Gen.Raise e) => (s', Gen.Raise e)
    end.

(** A step of the plain generator monad: the log stays as it is. *)
Definition lift {A} (c : Gen.t A) : t A :=
  fun s =>
    match c (gen s) with
    | (g', r) => ({| gen := g'; log := log s |}, r)
    end.

(** [self.logger.debug(msg)], [self.logger.error(msg)],
    [self.logger.error(msg, exc_info=True)] *)
Definition log_call (level : log_level) (msg : string) (exc_info : bool) : t unit :=
  fun s =>
    ({| gen := gen s;
        log := log s ++ [ {| log_level_of := level; log_msg := msg;
                             log_exc_info := exc_info |} ] |},
     Gen.Ok tt).

(** The current [body] dict. *)
Definition get_body : t (gmap string pyval) :=
  fun s => (s, Gen.Ok (Gen.body (gen s))).

(** [if cond: c] *)
Definition when (cond : bool) (c : t unit) : t unit :=
  if cond then c else ret tt.

Definition try_except {A} (c : t A) (h : exn -> t A) : t A :=
  fun s =>
    match c s with
    | (s', Gen.Ok a) => (s', Gen.Ok a)
    | (s', Gen.Raise e) => h e s'
    end.

Definition init (b : gmap string pyval) : state :=
  {| gen := Gen.init b; log := [] |}.

End LGen.

Notation "x <~ c ;; k" := (LGen.bind c (fun x => k))
  (at level 100, c at next level, right associativity).
Notation "c ;;~ k" := (LGen.bind c (fun _ => k))
  (at level 100, right associativity).

Section LoggedPipe.

Variable py_str : pyval -> string.
Variable json_loads : string -> option pyval.

(** [json.dumps(body, indent=2)], a Python built-in as the two above. *)
Variable dumps_indent : gmap string pyval -> string.

(** Lines 165-173, with the debug call of lines 171-172. *)
Fixpoint relay_logged (debug : bool) (lines : list string) (fin : option exn)
  : LGen.t unit :=
  match lines with
  | [] =>
      match fin with
      | None => LGen.ret tt
      | Some e => LGen.lift (Gen.raise e)
      end
  | line :: rest =>
      (if falsy line then LGen.ret tt
       else if startswith "data: " line then
         LGen.when debug
           (LGen.log_call DEBUG
              ("Streaming chunk: " +:+ take_chars 100 line +:+ "...") false) ;;~
         LGen.lift (Gen.yield (Forwarded line))
       else LGen.ret tt) ;;~
      relay_logged debug rest fin
  end.

(** Lines 153-162, with the error call of line 154. *)
Definition proxy_error_logged (response : response) : LGen.t unit :=
  let error_msg := "Memory proxy error: HTTP " +:+ str_int (status_code response) in
  LGen.log_call ERROR error_msg false ;;~
  LGen.try_except
    (error_body <~ LGen.lift (Gen.await (aread response)) ;;
     error_details <~ LGen.lift (loads json_loads error_body) ;;
     LGen.lift (Gen.yield (ErrorChunk (error_msg +:+ ": " +:+ py_str error_details))))
    (fun _ => LGen.lift (Gen.yield (ErrorChunk error_msg))).

(** Lines 141-173. *)
Definition on_response_logged (debug : bool) (url : string) (response : response)
  : LGen.t unit :=
  if status_code response =? 401 then
    let error_msg := "Authentication failed. Please check your PROXY_API_KEY." in
    LGen.log_call ERROR error_msg false ;;~
    LGen.lift (Gen.yield (ErrorChunk error_msg))
  else if status_code response =? 404 then
    let error_msg := "Memory proxy not found at " +:+ url
                     +:+ ". Is the server running?" in
    LGen.log_call ERROR error_msg false ;;~
    LGen.lift (Gen.yield (ErrorChunk error_msg))
  else if status_code response >=? 400 then
    proxy_error_logged response
  else
    relay_logged debug (aiter_lines response) (aiter_end response).

(** Lines 175-186. *)
Definition on_failure_logged (valves : Valves) (url : string) (e : exn)
  : LGen.t unit :=
  match exn_cls e with
  | ConnectError =>
      let error_msg := "Cannot connect to memory proxy at " +:+ url
                       +:+ ". Is the server running?" in
      LGen.log_call ERROR (error_msg +:+ " Error: " +:+ exn_str e) false ;;~
      LGen.lift (Gen.yield (ErrorChunk error_msg))
  | TimeoutException =>
      let error_msg := "Request timed out after "
                       +:+ str_int (TIMEOUT_SECONDS valves) +:+ "s" in
      LGen.log_call ERROR (error_msg +:+ " Error: " +:+ exn_str e) false ;;~
      LGen.lift (Gen.yield (ErrorChunk error_msg))
  | OtherException =>
      let error_msg := "Unexpected error: " +:+ exn_str e in
      LGen.log_call ERROR error_msg true ;;~
      LGen.lift (Gen.yield (ErrorChunk error_msg))
  | BaseExceptionOnly => LGen.lift (Gen.raise e)
  end.

(** Lines 83-186, every statement of the source. *)
Definition pipe_logged (valves : Valves) (transport : request -> awaited response)
    (__user__ : option (gmap string pyval)) : LGen.t unit :=
  let user_id := resolve_user_id py_str __user__ in
  LGen.when (DEBUG_MODE valves)
    (LGen.log_call DEBUG ("Processing request for user: " +:+ user_id) false ;;~
     body <~ LGen.get_body ;;
     LGen.log_call DEBUG ("Request body: " +:+ dumps_indent body) false) ;;~
  if falsy (PROXY_API_KEY valves) then
    let error_msg :=
      "PROXY_API_KEY is not configured. Please set it in the Valves configuration." in
    LGen.log_call ERROR error_msg false ;;~
    LGen.lift (Gen.yield (ErrorChunk error_msg))
  else
    let headers := build_headers valves user_id in
    LGen.lift (Gen.setitem "stream" (PBool true)) ;;~
    let url := target_url valves in
    LGen.try_except
      (LGen.when (DEBUG_MODE valves)
         (LGen.log_call DEBUG ("Sending request to: " +:+ url) false) ;;~
       response <~ LGen.lift (client_stream transport (TIMEOUT_SECONDS valves)
                                "POST" url headers) ;;
       on_response_logged (DEBUG_MODE valves) url response)
      (on_failure_logged valves url).

(** One call of [pipe] driven to its end, with its log. *)
Definition invoke_logged (valves : Valves) (transport : request -> awaited response)
    (body : gmap string pyval) (__user__ : option (gmap string pyval))
  : LGen.state * Gen.result unit :=
  pipe_logged valves transport __user__ (LGen.init body).

End LoggedPipe.

(** What is left of a logged run when the log is dropped. *)
Definition erase_log (r : LGen.state * Gen.result unit) : Gen.state * Gen.result unit :=
  (LGen.gen (fst r), snd r).

Definition logged (r : LGen.state * Gen.result unit) : list log_record :=
  LGen.log (fst r).

(** The record of line 172 for a forwarded line. *)
Definition streaming_record (line : string) : log_record :=
  {| log_level_of := DEBUG;
     log_msg := "Streaming chunk: " +:+ take_chars 100 line +:+ "...";
     log_exc_info := false |}.

(** ** The test suite, [tests/test_pipe.py] *)










(** ** [json.dumps] on an arbitrary [str]

    A Python [str] in full is the list of its code points, each below
    0x110000.  [Json.escape] above is the function below on the strings
    whose code points stay under 0x100 (lemma [escape_unicode_codepoints]);
    this section follows [py_encode_basestring_ascii] of [json.encoder]
    over the whole range. *)

(** Every character is printable ASCII, from space to tilde. *)
Fixpoint printable_ascii (s : string) : bool :=
  match s with
  | EmptyString => true
  | String c s' =>
      (32 <=? N_of_ascii c)%N && (N_of_ascii c <=? 126)%N && printable_ascii s'
  end.

(** ['{0:04x}'.format(n)] for [n < 0x10000]. *)
Definition hex4 (n : N) : string :=
  String (Json.hex_digit ((n / 4096) mod 16))
    (String (Json.hex_digit ((n / 256) mod 16))
       (String (Json.hex_digit ((n / 16) mod 16))
          (chr (Json.hex_digit (n mod 16)))))%N.

(** [replace] of [py_encode_basestring_ascii] on the code point [n]: the
    short escapes, the printable characters as they are, [\uXXXX] below
    0x10000 and a surrogate pair from there on. *)
Definition escape_codepoint (n : N) : string :=
  if (n =? 34)%N then String backslash (chr dquote)
  else if (n =? 92)%N then String backslash (chr backslash)
  else if (n =? 10)%N then String backslash "n"
  else if (n =? 13)%N then String backslash "r"
  else if (n =? 9)%N then String backslash "t"
  else if (n =? 8)%N then String backslash "b"
  else if (n =? 12)%N then String backslash "f"
  else if ((32 <=? n) && (n <=? 126))%N then chr (ascii_of_N n)
  else if (n <? 65536)%N then String backslash ("u" +:+ hex4 n)
  else
    let m := (n - 65536)%N in
    let s1 := N.lor 55296 (N.land (N.shiftr m 10) 1023) in
    let s2 := N.lor 56320 (N.land m 1023) in
    String backslash ("u" +:+ hex4 s1) +:+ String backslash ("u" +:+ hex4 s2).

Fixpoint escape_unicode (msg : list N) : string :=
  match msg with
  | [] => EmptyString
  | n :: msg' => escape_codepoint n +:+ escape_unicode msg'
  end.

(** [json.dumps({'error': msg})] for an arbitrary [str]. *)
Definition dumps_error_unicode (msg : list N) : string :=
  "{" +:+ Json.dumps_str "error" +:+ ": "
  +:+ String dquote (escape_unicode msg +:+ chr dquote) +:+ "}".

(** [f"data: {json.dumps({'error': error_msg})}\n\n"] for an arbitrary
    [str]: the text of an error chunk. *)
Definition error_frame (msg : list N) : string :=
  "data: " +:+ dumps_error_unicode msg +:+ blank_line.

(** The code points of a string of the model. *)
Fixpoint codepoints (s : string) : list N :=
  match s with
  | EmptyString => []
  | String c s' => N_of_ascii c :: codepoints s'
  end.

(** ** Direct execution of the module (lines 189-198) *)

(** [repr(s)] for a [str] that holds no quote, no backslash and only
    printable ASCII, as the two literals of [pipes] do. *)
Definition repr_plain (s : string) : string := "'" +:+ s +:+ "'".

(** [repr] of a model descriptor, a dict with the keys ['id'] and ['name']. *)
Definition repr_descriptor (m : model_descriptor) : string :=
  "{'id': " +:+ repr_plain (model_id m) +:+ ", 'name': "
  +:+ repr_plain (model_name m) +:+ "}".

(** [", ".join(items)] *)
Fixpoint join_comma (items : list string) : string :=
  match items with
  | [] => EmptyString
  | [item] => item
  | item :: (_ :: _) as rest => item +:+ ", " +:+ join_comma rest
  end.

(** [str(models)] for a list of descriptors. *)
Definition repr_models (models : list model_descriptor) : string :=
  "[" +:+ join_comma (map repr_descriptor models) +:+ "]".

(** The lines printed by [python tutor_gpt_pipe.py] in the environment
    [environ]: the module body and the [__main__] block run in the same
    process. *)
Definition main (environ : gmap string string) : list string :=
  let pipe := Pipe_new environ environ in
  [ "Tutor-GPT Pipe initialized successfully!";
    "Available models: " +:+ repr_models pipes;
    "Proxy URL: " +:+ PROXY_URL (self_valves pipe);
    "API Key configured: "
    +:+ (if falsy (PROXY_API_KEY (self_valves pipe)) then "No" else "Yes") ].

(** ** More sample inputs *)

Module SampleMore.

(** A stand-in for [json.dumps(body, indent=2)]: the sample runs only need
    some text in the "Request body" record. *)
Definition dumps_indent (body : gmap string pyval) : string := "{...}".

Definition run_logged := invoke_logged Sample.py_str Sample.json_loads dumps_indent.

Definition debugging : Valves :=
  {| PROXY_URL := "http://x/"; PROXY_API_KEY := "secret"; TIMEOUT_SECONDS := 300;
     DEBUG_MODE := true |}.

Definition no_environ : gmap string string := ∅.

Definition environ_with_key : gmap string string :=
  {[ "TUTOR_GPT_PROXY_API_KEY" := "secret" ]}.

(** [asyncio.CancelledError] *)
Definition cancelled : exn :=
  {| exn_cls := BaseExceptionOnly; exn_str := "CancelledError" |}.

(** A success status with a body that is no event stream. *)
Definition not_a_stream : response :=
  {| status_code := 200; aread := Got EmptyString;
     aiter_lines := ["event: ping"; ": keep-alive"; EmptyString];
     aiter_end := None |}.

Definition other_user : gmap string pyval := {[ "id" := PStr "xyz" ]}.

End SampleMore.

(** * Properties *)

Example rstrip_one : rstrip "/" "http://x/" = "http://x".
Proof. reflexivity. Qed.

Example rstrip_two : rstrip "/" "http://x//" = "http://x".
Proof. reflexivity. Qed.

Example rstrip_inner : rstrip "/" "a/b" = "a/b".
Proof. reflexivity. Qed.

Example str_int_500 : str_int 500 = "500".
Proof. reflexivity. Qed.

Example str_int_0 : str_int 0 = "0".
Proof. reflexivity. Qed.

Example str_int_neg : str_int (-12) = "-12".
Proof. reflexivity. Qed.

Example dumps_plain :
  Json.dumps_error "no" = "{" +:+ chr dquote +:+ "error" +:+ chr dquote +:+ ": "
                           +:+ chr dquote +:+ "no" +:+ chr dquote +:+ "}".
Proof. reflexivity. Qed.

(** ** Strings: helper lemmas *)

Lemma append_nil (b : string) : EmptyString +:+ b = b.
Proof. reflexivity. Qed.

Lemma append_cons (x : ascii) (a b : string) : String x a +:+ b = String x (a +:+ b).
Proof. reflexivity. Qed.

Lemma append_assoc (a b c : string) : (a +:+ b) +:+ c = a +:+ (b +:+ c).
Proof.
  induction a as [|x a IH]; [reflexivity|].
  rewrite !append_cons. f_equal. exact IH.
Qed.

Lemma append_empty_r (a : string) : a +:+ EmptyString = a.
Proof.
  induction a as [|x a IH]; [reflexivity|].
  rewrite append_cons. f_equal. exact IH.
Qed.

Lemma endswith_cons (p : string) (x : ascii) (s : string) :
  endswith p (String x s) = String.eqb p (String x s) || endswith p s.
Proof. reflexivity. Qed.

Lemma endswith_refl (p : string) : endswith p p = true.
Proof.
  destruct p as [|x p]; [reflexivity|].
  rewrite endswith_cons, String.eqb_refl. reflexivity.
Qed.

Lemma endswith_append (p a : string) : endswith p (a +:+ p) = true.
Proof.
  induction a as [|x a IH].
  - apply endswith_refl.
  - rewrite append_cons, endswith_cons, IH. apply orb_true_r.
Qed.

Lemma startswith_append (p a b : string) :
  startswith p a = true -> startswith p (a +:+ b) = true.
Proof.
  unfold startswith. revert a.
  induction p as [|x p IH]; intros a H.
  - destruct (a +:+ b); reflexivity.
  - destruct a as [|y a]; [discriminate|].
    rewrite append_cons. simpl in *.
    destruct (ascii_dec x y); [now apply IH | discriminate].
Qed.

Lemma falsy_not_data (line : string) :
  falsy line = true -> startswith "data: " line = false.
Proof. destruct line; [reflexivity | discriminate]. Qed.

Lemma falsy_empty (s : string) : falsy s = true <-> s = EmptyString.
Proof. destruct s; simpl; split; congruence. Qed.

Lemma rstrip_split (c : ascii) (s : string) :
  exists n, s = rstrip c s +:+ replicate_char n c.
Proof.
  induction s as [|a s [n IH]]; simpl.
  - exists 0%nat. reflexivity.
  - destruct (rstrip c s) as [|b r] eqn:E.
    + rewrite append_nil in IH. destruct (Ascii.eqb a c) eqn:Eac.
      * apply Ascii.eqb_eq in Eac. subst a. exists (S n).
        rewrite append_nil. simpl. now rewrite <- IH.
      * exists n. unfold chr. rewrite append_cons, append_nil. now rewrite <- IH.
    + exists n. rewrite append_cons. now rewrite <- IH.
Qed.

Lemma rstrip_no_trailing (c : ascii) (s : string) :
  endswith (chr c) (rstrip c s) = false.
Proof.
  induction s as [|a s IH]; simpl; [reflexivity|].
  destruct (rstrip c s) as [|b r] eqn:E.
  - destruct (Ascii.eqb a c) eqn:Eac; [reflexivity|].
    simpl. rewrite Ascii.eqb_sym, Eac. reflexivity.
  - rewrite endswith_cons, IH. simpl. destruct (Ascii.eqb c a); reflexivity.
Qed.

Lemma strip_one_cons (a b : ascii) (s : string) :
  strip_one_trailing_slash (String a (String b s))
  = String a (strip_one_trailing_slash (String b s)).
Proof. reflexivity. Qed.

Lemma strip_one_id (s : string) :
  endswith "/" s = false -> strip_one_trailing_slash s = s.
Proof.
  induction s as [|a s IH]; [reflexivity|].
  destruct s as [|b s].
  - simpl. destruct (Ascii.eqb_spec "/" a) as [<-|Hne]; [discriminate|].
    intros _. destruct (Ascii.eqb_spec a "/"); [congruence | reflexivity].
  - intros H. rewrite strip_one_cons.
    rewrite endswith_cons in H. apply orb_false_elim in H.
    rewrite IH; tauto.
Qed.

Lemma strip_one_single (s : string) :
  endswith "/" s = false -> strip_one_trailing_slash (s +:+ "/") = s.
Proof.
  induction s as [|a s IH]; [reflexivity|].
  intros H. rewrite endswith_cons in H.
  apply orb_false_elim in H. destruct H as [H1 H2].
  destruct s as [|b s].
  - rewrite append_cons, append_nil.
    destruct (Ascii.eqb_spec "/" a) as [<-|Hne].
    + cbv in H1. discriminate.
    + cbn. f_equal.
  - rewrite !append_cons, strip_one_cons, <- append_cons. now rewrite IH.
Qed.

Lemma replicate_char_snoc (n : nat) (c : ascii) :
  replicate_char (S n) c = replicate_char n c +:+ chr c.
Proof.
  induction n as [|n IH]; [reflexivity|].
  change (String c (replicate_char (S n) c)
          = String c (replicate_char n c +:+ chr c)).
  f_equal. exact IH.
Qed.

Lemma endswith_two_slashes (stem : string) (n : nat) :
  endswith "//" (stem +:+ replicate_char (S (S n)) "/") = true.
Proof.
  rewrite replicate_char_snoc, replicate_char_snoc.
  rewrite (append_assoc (replicate_char n "/")), <- append_assoc.
  apply endswith_append.
Qed.

Lemma rstrip_at_most_one (s : string) :
  endswith "//" s = false -> strip_one_trailing_slash s = rstrip "/" s.
Proof.
  intros H.
  destruct (rstrip_split "/" s) as [n Hn].
  pose proof (rstrip_no_trailing "/" s) as Hstem.
  destruct n as [|[|n]].
  - simpl in Hn. rewrite append_empty_r in Hn.
    rewrite <- Hn in Hstem |- *. now apply strip_one_id.
  - rewrite Hn at 1. now apply strip_one_single.
  - rewrite Hn, endswith_two_slashes in H. discriminate.
Qed.

(** ** Running the generator: helper lemmas *)

Lemma dict_truthy_lookup (d : gmap string pyval) (k : string) (v : pyval) :
  d !! k = Some v -> dict_truthy d = true.
Proof.
  intros H. unfold dict_truthy.
  destruct (size d) as [|n] eqn:E; [|reflexivity].
  apply map_size_empty_inv in E. subst d. rewrite lookup_empty in H. discriminate.
Qed.

Lemma error_chunks_forwarded (lines : list string) :
  List.filter is_error_chunk (map Forwarded lines) = [].
Proof. induction lines as [|l lines IH]; [reflexivity | exact IH]. Qed.


Lemma sse_frame_of_framed (c : chunk) : framed c -> sse_frame (chunk_text c).
Proof.
  destruct c as [line|msg]; simpl; intros H; split.
  - now apply startswith_append.
  - apply endswith_append.
  - reflexivity.
  - fold blank_line. rewrite <- append_assoc. apply endswith_append.
Qed.

Lemma sse_frames_of_framed (l : list chunk) :
  List.Forall framed l -> List.Forall sse_frame (map chunk_text l).
Proof.
  induction 1 as [|c l Hc _ IH]; simpl; constructor;
    [now apply sse_frame_of_framed | exact IH].
Qed.

Lemma framed_data_lines (lines : list string) :
  List.Forall framed (map Forwarded (data_lines lines)).
Proof.
  induction lines as [|line lines IH]; simpl; [constructor|].
  destruct (startswith "data: " line) eqn:E; simpl; [constructor|]; assumption.
Qed.

Lemma forwarded_text (lines : list string) :
  map chunk_text (map Forwarded lines) = map (fun line => line +:+ blank_line) lines.
Proof. rewrite map_map. reflexivity. Qed.

Lemma key_cases (valves : Valves) :
  PROXY_API_KEY valves = EmptyString \/ PROXY_API_KEY valves <> EmptyString.
Proof. destruct (PROXY_API_KEY valves); [left | right]; congruence. Qed.

(** The status tests as arithmetic facts. *)
Ltac status_facts :=
  repeat match goal with
         | H : Z.eqb _ _ = true |- _ => apply Z.eqb_eq in H
         | H : Z.eqb _ _ = false |- _ => apply Z.eqb_neq in H
         | H : Z.geb _ _ = true |- _ => rewrite Z.geb_leb in H; apply Z.leb_le in H
         | H : Z.geb _ _ = false |- _ => rewrite Z.geb_leb in H; apply Z.leb_gt in H
         end.

(** Case analysis along the control flow of [pipe] after the key check:
    the status tests, the result of [aread] and [json.loads], the end of
    the line iteration and the class of the exception. *)
Ltac pipe_case :=
  match goal with
  | |- context [Z.eqb (status_code ?r) ?k] => destruct (Z.eqb (status_code r) k) eqn:?
  | |- context [Z.geb (status_code ?r) ?k] => destruct (Z.geb (status_code r) k) eqn:?
  | |- context [aread ?r] => destruct (aread r) eqn:?
  | |- context [aiter_end ?r] => destruct (aiter_end r) as [[[] ?]|] eqn:?
  end.

Section Facts.

Variable py_str : pyval -> string.
Variable json_loads : string -> option pyval.

Abbreviation run := (invoke py_str json_loads).

(** The relay loop in closed form: the forwarded lines are appended in
    order, and the loop ends the way the line iteration ends. *)
Lemma relay_run (lines : list string) (fin : option exn) (s : Gen.state) :
  relay lines fin s
  = ({| Gen.body := Gen.body s;
        Gen.out := Gen.out s ++ map Forwarded (data_lines lines);
        Gen.calls := Gen.calls s |},
     match fin with
     | None => Gen.Ok tt
     | Some e => Gen.Raise e
     end).
Proof.
  revert s. induction lines as [|line rest IH]; intros s.
  - simpl. rewrite app_nil_r. destruct s, fin; reflexivity.
  - simpl. unfold Gen.bind.
    destruct (falsy line) eqn:Hf.
    + rewrite (falsy_not_data _ Hf). unfold Gen.ret. apply IH.
    + destruct (startswith "data: " line) eqn:Hd.
      * unfold Gen.yield. rewrite IH. simpl. rewrite <- app_assoc. reflexivity.
      * unfold Gen.ret. apply IH.
Qed.

Ltac run_pipe :=
  unfold on_response, proxy_error, Gen.try_except, Gen.bind, loads;
  repeat (first
    [ rewrite relay_run
    | pipe_case
    | match goal with
      | |- context [json_loads ?d] => destruct (json_loads d) eqn:?
      end ]; simpl);
  simpl.

Lemma invoke_no_key valves transport body user :
  PROXY_API_KEY valves = EmptyString ->
  run valves transport body user
  = ({| Gen.body := body;
        Gen.out := [ErrorChunk
          "PROXY_API_KEY is not configured. Please set it in the Valves configuration."];
        Gen.calls := [] |}, Gen.Ok tt).
Proof.
  intros H. unfold invoke, pipe. rewrite H. reflexivity.
Qed.

Lemma invoke_with_key valves transport body user :
  PROXY_API_KEY valves <> EmptyString ->
  run valves transport body user
  = match transport (outbound py_str valves body user) with
    | Got resp =>
        Gen.try_except (on_response py_str json_loads (target_url valves) resp)
          (on_failure valves (target_url valves))
          (network_state py_str valves body user)
    | Raises e =>
        on_failure valves (target_url valves) e (network_state py_str valves body user)
    end.
Proof.
  intros H. unfold invoke, pipe.
  destruct (falsy (PROXY_API_KEY valves)) eqn:Hf.
  { apply falsy_empty in Hf. contradiction. }
  unfold Gen.bind, Gen.try_except, Gen.setitem, client_stream, Gen.init. simpl.
  fold (outbound py_str valves body user).
  destruct (transport (outbound py_str valves body user)); reflexivity.
Qed.

Lemma sent_outbound valves transport body user :
  PROXY_API_KEY valves <> EmptyString ->
  sent (run valves transport body user) = [outbound py_str valves body user].
Proof.
  intros H. rewrite (invoke_with_key _ _ _ _ H). unfold sent.
  destruct (transport _) as [resp|e].
  - run_pipe; reflexivity.
  - destruct e as [[] ?]; reflexivity.
Qed.

(** *** Pre-flight validation *)

(** C1. With an empty [PROXY_API_KEY], an invocation yields exactly one
    chunk, the SSE error frame whose JSON payload carries the message
    "PROXY_API_KEY is not configured. Please set it in the Valves
    configuration.", then the sequence ends normally, and no request is
    handed to the HTTP client. *)
Theorem C1_missing_key_single_error valves transport body user :
  PROXY_API_KEY valves = EmptyString ->
  yielded (run valves transport body user)
  = [ErrorChunk
       "PROXY_API_KEY is not configured. Please set it in the Valves configuration."]
  /\ yielded_text (run valves transport body user)
     = ["data: {" +:+ chr dquote +:+ "error" +:+ chr dquote +:+ ": " +:+ chr dquote
        +:+ "PROXY_API_KEY is not configured. Please set it in the Valves configuration."
        +:+ chr dquote +:+ "}" +:+ blank_line]
  /\ outcome (run valves transport body user) = Gen.Ok tt
  /\ sent (run valves transport body user) = [].
Proof.
  intros H. rewrite (invoke_no_key _ _ _ _ H).
  repeat split; reflexivity.
Qed.

(** C10. With an empty [PROXY_API_KEY], the caller's body mapping is
    left exactly as it was: the key check returns before
    [body["stream"] = True]. *)
Theorem C10_missing_key_body_untouched valves transport body user :
  PROXY_API_KEY valves = EmptyString ->
  body_after (run valves transport body user) = body.
Proof.
  intros H. rewrite (invoke_no_key _ _ _ _ H). reflexivity.
Qed.

(** *** The outbound request *)

(** C5. The [X-User-Id] header of the request sent is ["openwebui_"]
    followed by the user context's identifier when the context is there
    and holds an ["id"], and ["openwebui-user"] otherwise; for an
    identifier that is a string, such as ["abc123"], it is
    ["openwebui_abc123"]. *)
Theorem C5_user_id_header valves transport body user :
  PROXY_API_KEY valves <> EmptyString ->
  exists req,
    sent (run valves transport body user) = [req]
    /\ header "X-User-Id" (req_headers req)
       = Some match user with
              | Some u =>
                  match u !! "id" with
                  | Some ident => "openwebui_" +:+ py_str ident
                  | None => "openwebui-user"
                  end
              | None => "openwebui-user"
              end
    /\ ((forall s, py_str (PStr s) = s) ->
        forall u s, user = Some u -> u !! "id" = Some (PStr s) ->
          header "X-User-Id" (req_headers req) = Some ("openwebui_" +:+ s)).
Proof.
  intros H. exists (outbound py_str valves body user).
  split; [now apply sent_outbound|].
  assert (Hid : resolve_user_id py_str user
                = match user with
                  | Some u =>
                      match u !! "id" with
                      | Some ident => "openwebui_" +:+ py_str ident
                      | None => "openwebui-user"
                      end
                  | None => "openwebui-user"
                  end).
  { unfold resolve_user_id. destruct user as [u|]; [|reflexivity].
    destruct (u !! "id") as [ident|] eqn:E.
    - now rewrite (dict_truthy_lookup _ _ _ E).
    - destruct (dict_truthy u); reflexivity. }
  split.
  - simpl. now rewrite Hid.
  - intros Hstr u s Huser Hu. simpl. rewrite Hid, Huser, Hu, Hstr. reflexivity.
Qed.

(** C6. Whatever the [stream] field of the body was (true, false or
    absent), once the key check has passed the body handed to the HTTP
    client and the caller's mapping both have [stream] equal to [True];
    the other fields are as the host supplied them. *)
Theorem C6_stream_forced valves transport body user :
  PROXY_API_KEY valves <> EmptyString ->
  body_after (run valves transport body user) !! "stream" = Some (PBool true)
  /\ exists req,
       sent (run valves transport body user) = [req]
       /\ req_json req !! "stream" = Some (PBool true)
       /\ req_json req = body_after (run valves transport body user)
       /\ forall k, k <> "stream" -> req_json req !! k = body !! k.
Proof.
  intros H.
  assert (Hb : body_after (run valves transport body user)
               = <["stream" := PBool true]> body).
  { rewrite (invoke_with_key _ _ _ _ H). unfold body_after.
    destruct (transport _) as [resp|e].
    - run_pipe; reflexivity.
    - destruct e as [[] ?]; reflexivity. }
  rewrite Hb. split; [apply lookup_insert_eq|].
  exists (outbound py_str valves body user).
  split; [now apply sent_outbound|].
  simpl. split; [apply lookup_insert_eq|].
  split; [reflexivity|].
  intros k Hk. now apply lookup_insert_ne.
Qed.

(** *** Streaming relay *)

(** C2. For a response with a success status whose body is delivered to
    its end, the invocation yields one chunk per line that begins with
    ["data: "], in the order of the lines, each being that line followed
    by a blank line; empty lines and lines without the prefix give no
    chunk. *)
Theorem C2_relay_in_order valves transport body user resp :
  PROXY_API_KEY valves <> EmptyString ->
  transport (outbound py_str valves body user) = Got resp ->
  status_code resp < 400 ->
  aiter_end resp = None ->
  yielded_text (run valves transport body user)
  = map (fun line => line +:+ blank_line)
        (List.filter (startswith "data: ") (aiter_lines resp))
  /\ yielded (run valves transport body user)
     = map Forwarded (data_lines (aiter_lines resp))
  /\ outcome (run valves transport body user) = Gen.Ok tt.
Proof.
  intros Hkey Ht Hst Hend.
  rewrite (invoke_with_key _ _ _ _ Hkey), Ht.
  unfold yielded_text, yielded, outcome.
  run_pipe; status_facts; try lia; try congruence.
  rewrite forwarded_text. repeat split; reflexivity.
Qed.

(** *** Response status handling *)


(** *** Network failures *)


(** *** Whole-invocation properties *)


(** C9. Every chunk an invocation yields, forwarded line or error
    chunk, on every path, begins with ["data: "] and ends with a blank
    line. *)
Theorem C9_every_chunk_is_sse_frame valves transport body user :
  List.Forall sse_frame (yielded_text (run valves transport body user)).
Proof.
  unfold yielded_text. apply sse_frames_of_framed.
  destruct (key_cases valves) as [Hkey|Hkey].
  { rewrite (invoke_no_key _ _ _ _ Hkey). repeat constructor. }
  rewrite (invoke_with_key _ _ _ _ Hkey). unfold yielded.
  destruct (transport _) as [resp|e].
  - run_pipe; rewrite ?app_nil_r;
      repeat first [ apply framed_data_lines
                   | apply List.Forall_app; split
                   | constructor ].
  - destruct e as [[] msg]; repeat constructor.
Qed.

End Facts.

(** *** Target URL *)

(** C7, amended.  The target URL is [PROXY_URL] with every trailing slash
    stripped, followed by ["/v1/chat/completions"]: [PROXY_URL] is a stem
    that does not end in a slash followed by some number of slashes, and
    the target URL is built on the stem.  When [PROXY_URL] ends in at most
    one slash this is the URL with exactly one trailing slash stripped;
    ["http://x/"] gives ["http://x/v1/chat/completions"]. *)
Theorem C7_target_url_strips_every_slash (valves : Valves) :
  (exists stem n,
      PROXY_URL valves = stem +:+ replicate_char n "/"
      /\ endswith "/" stem = false
      /\ target_url valves = stem +:+ "/v1/chat/completions")
  /\ (endswith "//" (PROXY_URL valves) = false ->
      target_url valves = spec_target_url valves)
  /\ (forall key timeout debug,
        target_url (mkValves "http://x/" key timeout debug)
        = "http://x/v1/chat/completions").
Proof.
  split; [|split].
  - destruct (rstrip_split "/" (PROXY_URL valves)) as [n Hn].
    exists (rstrip "/" (PROXY_URL valves)), n.
    split; [exact Hn|]. split; [apply rstrip_no_trailing | reflexivity].
  - intros H. unfold target_url, spec_target_url.
    now rewrite (rstrip_at_most_one _ H).
  - reflexivity.
Qed.

(** C7 as the spec words it fails on a [PROXY_URL] that ends in two
    slashes: the code strips both, "exactly one" would leave one. *)
Lemma C7_two_slashes_counterexample :
  target_url Sample.two_slashes = "http://x/v1/chat/completions"
  /\ spec_target_url Sample.two_slashes = "http://x//v1/chat/completions"
  /\ target_url Sample.two_slashes <> spec_target_url Sample.two_slashes.
Proof.
  split; [reflexivity|]. split; [reflexivity|].
  vm_compute. discriminate.
Qed.


(** ** Runs on the sample inputs *)

Lemma keyed_has_key : PROXY_API_KEY Sample.keyed <> EmptyString.
Proof. vm_compute. discriminate. Qed.

(** An empty key and a transport that would fail: one chunk, no call. *)
Lemma C1_missing_key_witness :
  yielded (Sample.run Sample.unkeyed (Sample.always (Raises Sample.connect_exn))
             Sample.body0 (Some Sample.user0))
  = [ErrorChunk
       "PROXY_API_KEY is not configured. Please set it in the Valves configuration."]
  /\ sent (Sample.run Sample.unkeyed (Sample.always (Raises Sample.connect_exn))
             Sample.body0 (Some Sample.user0)) = [].
Proof.
  destruct (C1_missing_key_single_error Sample.py_str Sample.json_loads
              Sample.unkeyed (Sample.always (Raises Sample.connect_exn))
              Sample.body0 (Some Sample.user0) eq_refl) as (Hy & _ & _ & Hs).
  split; [exact Hy | exact Hs].
Defined.

(** An empty key leaves [stream] as the host set it. *)
Lemma C10_body_untouched_witness :
  body_after (Sample.run Sample.unkeyed (Sample.always (Got (Sample.ok_response [])))
                Sample.body0 None) = Sample.body0.
Proof.
  exact (C10_missing_key_body_untouched Sample.py_str Sample.json_loads
           Sample.unkeyed (Sample.always (Got (Sample.ok_response [])))
           Sample.body0 None eq_refl).
Defined.

(** The user context with [id = "abc123"]. *)
Lemma C5_user_id_witness :
  exists req,
    sent (Sample.run Sample.keyed (Sample.always (Got (Sample.ok_response [])))
            Sample.body0 (Some Sample.user0)) = [req]
    /\ header "X-User-Id" (req_headers req) = Some "openwebui_abc123".
Proof.
  destruct (C5_user_id_header Sample.py_str Sample.json_loads
              Sample.keyed (Sample.always (Got (Sample.ok_response [])))
              Sample.body0 (Some Sample.user0) keyed_has_key)
    as (req & Hs & _ & Hid).
  exists req. split; [exact Hs|].
  apply (Hid (fun s => eq_refl) Sample.user0 "abc123"); reflexivity.
Defined.

(** A body that came with [stream = False]. *)
Lemma C6_stream_forced_witness :
  Sample.body0 !! "stream" = Some (PBool false)
  /\ body_after (Sample.run Sample.keyed (Sample.always (Raises Sample.connect_exn))
                   Sample.body0 None) !! "stream" = Some (PBool true).
Proof.
  split; [reflexivity|].
  exact (proj1 (C6_stream_forced Sample.py_str Sample.json_loads
                  Sample.keyed (Sample.always (Raises Sample.connect_exn))
                  Sample.body0 None keyed_has_key)).
Defined.

(** Two data lines among empty lines and an [event:] line. *)
Lemma C2_relay_witness :
  yielded_text (Sample.run Sample.keyed
                  (Sample.always (Got (Sample.ok_response Sample.two_lines)))
                  Sample.body0 None)
  = [Sample.line1 +:+ blank_line; Sample.line2 +:+ blank_line].
Proof.
  refine (proj1 (C2_relay_in_order Sample.py_str Sample.json_loads
                   Sample.keyed
                   (Sample.always (Got (Sample.ok_response Sample.two_lines)))
                   Sample.body0 None (Sample.ok_response Sample.two_lines)
                   keyed_has_key eq_refl _ eq_refl)).
  simpl. lia.
Defined.




(** One trailing slash: the code and the spec's wording agree. *)
Lemma C7_single_slash_witness :
  target_url Sample.keyed = spec_target_url Sample.keyed.
Proof.
  apply (proj1 (proj2 (C7_target_url_strips_every_slash Sample.keyed))).
  reflexivity.
Defined.

(** * Further properties of the source *)

(** ** Logging *)

Lemma error_records_streaming (lines : list string) :
  List.filter is_error_record (map streaming_record lines) = [].
Proof. induction lines as [|l lines IH]; [reflexivity | exact IH]. Qed.

Lemma emitted_info_streaming (lines : list string) :
  emitted INFO (map streaming_record lines) = [].
Proof. induction lines as [|l lines IH]; [reflexivity | exact IH]. Qed.

Lemma emitted_app (threshold : log_level) (l1 l2 : list log_record) :
  emitted threshold (l1 ++ l2) = emitted threshold l1 ++ emitted threshold l2.
Proof. apply List.filter_app. Qed.

(** Case analysis on what the transport answers to the request. *)
Ltac answer_cases :=
  match goal with
  | |- context [?t ?r] =>
      lazymatch type of r with
      | request => destruct (t r) as [?resp|[[] ?msg]] eqn:?
      end
  end.

Section LoggedFacts.

Variable py_str : pyval -> string.
Variable json_loads : string -> option pyval.
Variable dumps_indent : gmap string pyval -> string.

Abbreviation run_logged := (invoke_logged py_str json_loads dumps_indent).

(** The relay loop with its debug calls, in closed form. *)
Lemma relay_logged_run (debug : bool) (lines : list string) (fin : option exn)
    (s : LGen.state) :
  relay_logged debug lines fin s
  = ({| LGen.gen :=
          {| Gen.body := Gen.body (LGen.gen s);
             Gen.out := Gen.out (LGen.gen s) ++ map Forwarded (data_lines lines);
             Gen.calls := Gen.calls (LGen.gen s) |};
        LGen.log :=
          LGen.log s
          ++ (if debug then map streaming_record (data_lines lines) else []) |},
     match fin with
     | None => Gen.Ok tt
     | Some e => Gen.Raise e
     end).
Proof.
  revert s. induction lines as [|line rest IH]; intros [[b o c] l].
  - simpl. rewrite !app_nil_r. destruct debug, fin; simpl; rewrite ?app_nil_r; reflexivity.
  - simpl. unfold LGen.bind.
    destruct (falsy line) eqn:Hf.
    + rewrite (falsy_not_data _ Hf). unfold LGen.ret. rewrite IH. reflexivity.
    + destruct (startswith "data: " line) eqn:Hd.
      * destruct debug; simpl; rewrite IH; simpl;
          rewrite <- !app_assoc; reflexivity.
      * unfold LGen.ret. rewrite IH. reflexivity.
Qed.

Ltac run_logged_pipe :=
  unfold on_response_logged, proxy_error_logged, on_failure_logged,
    LGen.try_except, LGen.bind, LGen.lift, LGen.when, LGen.log_call, LGen.ret,
    on_response, proxy_error, on_failure, Gen.try_except, Gen.bind, loads;
  repeat (first
    [ rewrite relay_logged_run
    | rewrite relay_run
    | pipe_case
    | match goal with
      | |- context [json_loads ?d] => destruct (json_loads d) eqn:?
      end ]; simpl);
  simpl.

(** Both embeddings unfolded up to the answer of the transport. *)
Ltac enter_pipe valves :=
  unfold invoke_logged, pipe_logged, invoke, pipe, LGen.init, Gen.init,
    LGen.bind, LGen.when, LGen.lift, LGen.try_except, LGen.log_call, LGen.get_body,
    LGen.ret, Gen.bind, Gen.try_except, Gen.setitem, client_stream;
  simpl.

Lemma erase_log_invoke valves transport body user :
  erase_log (run_logged valves transport body user)
  = invoke py_str json_loads valves transport body user.
Proof.
  unfold erase_log. enter_pipe valves.
  destruct (DEBUG_MODE valves), (falsy (PROXY_API_KEY valves)); simpl;
    try reflexivity.
  all: answer_cases; simpl; try reflexivity.
  all: run_logged_pipe; reflexivity.
Qed.

(** X1. Dropping the log from a run of [pipe] with all its logger calls
    gives the run of [pipe] without them: what is yielded, what is sent,
    what happens to the body and how the generator ends are the same
    whether [DEBUG_MODE] is on or off and whatever is logged. *)
Theorem logging_is_transparent valves transport body user :
  erase_log (run_logged valves transport body user)
  = invoke py_str json_loads valves transport body user
  /\ forall debug,
       erase_log (run_logged
                    (mkValves (PROXY_URL valves) (PROXY_API_KEY valves)
                       (TIMEOUT_SECONDS valves) debug)
                    transport body user)
       = erase_log (run_logged valves transport body user).
Proof.
  split; [apply erase_log_invoke|].
  intros debug. rewrite !erase_log_invoke. reflexivity.
Qed.

(** X2. Every error chunk comes with exactly one call to
    [self.logger.error] and every such call with an error chunk: in any
    run the number of error-level log records equals the number of error
    chunks yielded. *)
Theorem one_error_record_per_error_chunk valves transport body user :
  length (List.filter is_error_record (logged (run_logged valves transport body user)))
  = length (error_chunks (erase_log (run_logged valves transport body user))).
Proof.
  unfold logged, error_chunks, yielded, erase_log. enter_pipe valves.
  destruct (DEBUG_MODE valves), (falsy (PROXY_API_KEY valves)); simpl;
    try reflexivity.
  all: answer_cases; simpl; try reflexivity.
  all: run_logged_pipe;
    rewrite ?List.filter_app, ?error_records_streaming, ?error_chunks_forwarded;
    reflexivity.
Qed.

Lemma levels_without_debug valves transport body user :
  DEBUG_MODE valves = false ->
  map log_level_of (logged (run_logged valves transport body user))
  = map (fun _ => ERROR)
        (error_chunks (erase_log (run_logged valves transport body user))).
Proof.
  intros Hd. unfold logged, error_chunks, yielded, erase_log. enter_pipe valves.
  rewrite Hd. destruct (falsy (PROXY_API_KEY valves)); simpl; try reflexivity.
  answer_cases; simpl; try reflexivity.
  run_logged_pipe;
    rewrite ?app_nil_r, ?List.filter_app, ?error_chunks_forwarded;
    reflexivity.
Qed.

(** X3. With [DEBUG_MODE] off the log of a run holds one ERROR record per
    error chunk and nothing else; a run that yields no error chunk logs
    nothing. *)
Theorem quiet_without_debug valves transport body user :
  DEBUG_MODE valves = false ->
  map log_level_of (logged (run_logged valves transport body user))
  = map (fun _ => ERROR)
        (error_chunks (erase_log (run_logged valves transport body user)))
  /\ (error_chunks (erase_log (run_logged valves transport body user)) = [] ->
      logged (run_logged valves transport body user) = []).
Proof.
  intros Hd. pose proof (levels_without_debug valves transport body user Hd) as H.
  split; [exact H|].
  intros Hnone. rewrite Hnone in H.
  destruct (logged _); [reflexivity | discriminate].
Qed.

(** X4. With [DEBUG_MODE] on, a success-status response streamed to its
    end leaves this log: the resolved user id, the body as the host gave
    it (serialised before [stream] is forced), the target URL, and then one
    "Streaming chunk" record per forwarded line, in order, each with at
    most the first 100 characters of the line. *)
Theorem debug_trace_of_a_relay valves transport body user resp :
  DEBUG_MODE valves = true ->
  PROXY_API_KEY valves <> EmptyString ->
  transport (outbound py_str valves body user) = Got resp ->
  status_code resp < 400 ->
  aiter_end resp = None ->
  logged (run_logged valves transport body user)
  = [ mkLog DEBUG ("Processing request for user: "
                   +:+ resolve_user_id py_str user) false;
      mkLog DEBUG ("Request body: " +:+ dumps_indent body) false;
      mkLog DEBUG ("Sending request to: " +:+ target_url valves) false ]
    ++ map streaming_record (data_lines (aiter_lines resp)).
Proof.
  intros Hd Hkey Ht Hst Hend. unfold outbound in Ht.
  unfold logged. enter_pipe valves. rewrite Hd.
  destruct (falsy (PROXY_API_KEY valves)) eqn:Hf.
  { apply falsy_empty in Hf. contradiction. }
  simpl. rewrite Ht. simpl.
  run_logged_pipe; status_facts; try lia; congruence.
Qed.

(** X5. [Pipe()] sets the logger to INFO whatever the environment was at
    import and is at construction (the valves it reads are the defaults,
    whose [DEBUG_MODE] is off), and a logger at that level lets through
    exactly the error records of a run, also when the valves handed to
    [pipe] have [DEBUG_MODE] on. *)
Theorem logger_of_init_passes_errors_only environ_at_import environ_now
    valves transport body user :
  self_logger_level (Pipe_new environ_at_import environ_now) = INFO
  /\ emitted (self_logger_level (Pipe_new environ_at_import environ_now))
       (logged (run_logged valves transport body user))
     = List.filter is_error_record (logged (run_logged valves transport body user)).
Proof.
  split; [reflexivity|].
  change (self_logger_level (Pipe_new environ_at_import environ_now)) with INFO.
  unfold logged. enter_pipe valves.
  destruct (DEBUG_MODE valves), (falsy (PROXY_API_KEY valves)); simpl;
    try reflexivity.
  all: answer_cases; simpl; try reflexivity.
  all: run_logged_pipe;
    rewrite ?emitted_app, ?List.filter_app, ?emitted_info_streaming,
      ?error_records_streaming;
    reflexivity.
Qed.

End LoggedFacts.

(** ** The request, the body and the end of the generator *)

Section MoreFacts.

Variable py_str : pyval -> string.
Variable json_loads : string -> option pyval.
Variable dumps_indent : gmap string pyval -> string.

Abbreviation run' := (invoke py_str json_loads).
Abbreviation run_logged' := (invoke_logged py_str json_loads dumps_indent).

Ltac run_pipe' :=
  unfold on_response, proxy_error, on_failure, Gen.try_except, Gen.bind, loads;
  repeat (first
    [ rewrite relay_run
    | pipe_case
    | match goal with
      | |- context [json_loads ?d] => destruct (json_loads d) eqn:?
      end ]; simpl);
  simpl.

(** X7. An invocation makes no request when the key is empty and exactly
    one otherwise, whatever the remote does: a POST to the target URL with
    the three headers [Authorization: Bearer <key>], [Content-Type:
    application/json] and [X-User-Id], the body with [stream] forced, and
    [TIMEOUT_SECONDS] as timeout. *)
Theorem requests_of_an_invocation valves transport body user :
  sent (run' valves transport body user)
  = if falsy (PROXY_API_KEY valves) then []
    else [ {| req_method := "POST";
              req_url := rstrip "/" (PROXY_URL valves) +:+ "/v1/chat/completions";
              req_headers :=
                [ ("Authorization", "Bearer " +:+ PROXY_API_KEY valves);
                  ("Content-Type", "application/json");
                  ("X-User-Id", resolve_user_id py_str user) ];
              req_json := <["stream" := PBool true]> body;
              req_timeout := TIMEOUT_SECONDS valves |} ].
Proof.
  destruct (falsy (PROXY_API_KEY valves)) eqn:Hf.
  - apply falsy_empty in Hf. now rewrite (invoke_no_key _ _ _ _ _ _ Hf).
  - assert (Hkey : PROXY_API_KEY valves <> EmptyString).
    { intros E. rewrite E in Hf. discriminate. }
    now rewrite (sent_outbound _ _ _ _ _ _ Hkey).
Qed.

(** X8. A pipe built by [Pipe()] from a module that was imported while
    [TUTOR_GPT_PROXY_API_KEY] was unset or empty answers every invocation
    with the one configuration error chunk, logs that error once, sends
    nothing and leaves the body alone, whatever the environment is when
    the pipe is built: setting the variable after the import does not
    configure the key. *)
Theorem fresh_pipe_without_key environ_at_import environ_now transport body user :
  environ_at_import !! "TUTOR_GPT_PROXY_API_KEY" = None
  \/ environ_at_import !! "TUTOR_GPT_PROXY_API_KEY" = Some EmptyString ->
  yielded (erase_log (run_logged'
                        (self_valves (Pipe_new environ_at_import environ_now))
                        transport body user))
  = [ErrorChunk
       "PROXY_API_KEY is not configured. Please set it in the Valves configuration."]
  /\ sent (erase_log (run_logged'
                        (self_valves (Pipe_new environ_at_import environ_now))
                        transport body user))
     = []
  /\ body_after (erase_log (run_logged'
                              (self_valves (Pipe_new environ_at_import environ_now))
                              transport body user))
     = body
  /\ logged (run_logged' (self_valves (Pipe_new environ_at_import environ_now))
               transport body user)
     = [mkLog ERROR
          "PROXY_API_KEY is not configured. Please set it in the Valves configuration."
          false].
Proof.
  intros Henv.
  assert (Hkey : PROXY_API_KEY (self_valves (Pipe_new environ_at_import environ_now))
                 = EmptyString).
  { simpl. unfold getenv. destruct Henv as [-> | ->]; reflexivity. }
  rewrite erase_log_invoke, (invoke_no_key _ _ _ _ _ _ Hkey).
  repeat split.
  unfold logged, invoke_logged, pipe_logged. rewrite Hkey. reflexivity.
Qed.

(** X9. A pipe built by [Pipe()] from a module that was imported while
    [TUTOR_GPT_PROXY_API_KEY] held a non-empty key sends, on every
    invocation, one request that carries that key as bearer token, the
    timeout 300 and the URL made from the [TUTOR_GPT_PROXY_URL] of the
    import, [http://localhost:8081/v1/chat/completions] when that variable
    was unset; the environment at the time the pipe is built plays no
    part. *)
Theorem fresh_pipe_with_key environ_at_import environ_now key transport body user :
  environ_at_import !! "TUTOR_GPT_PROXY_API_KEY" = Some key ->
  key <> EmptyString ->
  exists req,
    sent (run' (self_valves (Pipe_new environ_at_import environ_now))
            transport body user) = [req]
    /\ header "Authorization" (req_headers req) = Some ("Bearer " +:+ key)
    /\ req_timeout req = 300
    /\ req_url req
       = rstrip "/" (getenv environ_at_import "TUTOR_GPT_PROXY_URL"
                       "http://localhost:8081")
         +:+ "/v1/chat/completions"
    /\ (environ_at_import !! "TUTOR_GPT_PROXY_URL" = None ->
        req_url req = "http://localhost:8081/v1/chat/completions").
Proof.
  intros Henv Hne.
  assert (Hk : PROXY_API_KEY (self_valves (Pipe_new environ_at_import environ_now))
               = key).
  { simpl. unfold getenv. now rewrite Henv. }
  eexists. split.
  - apply sent_outbound. now rewrite Hk.
  - simpl. unfold getenv at 1. rewrite Henv.
    repeat split. intros Hurl. unfold target_url. simpl. unfold getenv.
    rewrite Hurl. reflexivity.
Qed.

(** X10. The [stream] field the host supplied has no influence at all:
    two bodies that agree on every other field give the same run (chunks,
    request, final body, end of the generator) once the key check has
    passed.  In particular a second invocation on the mapping the first
    one left behind repeats the first. *)
Theorem stream_field_is_ignored valves transport body1 body2 user :
  PROXY_API_KEY valves <> EmptyString ->
  (forall k, k <> "stream" -> body1 !! k = body2 !! k) ->
  run' valves transport body1 user = run' valves transport body2 user.
Proof.
  intros Hkey Hagree.
  assert (E : <["stream" := PBool true]> body1 = <["stream" := PBool true]> body2).
  { apply map_eq. intros k. destruct (decide ("stream" = k)) as [<-|Hne].
    - now rewrite !lookup_insert_eq.
    - rewrite !lookup_insert_ne by assumption. apply Hagree. congruence. }
  rewrite !(invoke_with_key _ _ _ _ _ _ Hkey).
  unfold outbound, network_state, outbound. now rewrite E.
Qed.

(** X11. The relay works line by line: relaying [lines1 ++ lines2] is
    relaying [lines1] to its end and then relaying [lines2], so what has
    been forwarded for the lines received so far never changes when more
    lines arrive. *)
Theorem relay_of_concatenation lines1 lines2 fin s :
  relay (lines1 ++ lines2) fin s
  = (relay lines1 None ;;; relay lines2 fin) s.
Proof.
  unfold Gen.bind. rewrite !relay_run. simpl.
  unfold data_lines. rewrite List.filter_app, map_app, app_assoc. reflexivity.
Qed.

(** X12. A success-status response whose body has no line beginning with
    ["data: "] (an empty body, a plain JSON document, SSE comments only)
    gives an empty sequence that ends normally: no chunk, no error chunk,
    and with [DEBUG_MODE] off no log record either. *)
Theorem body_without_data_lines_is_silent valves transport body user resp :
  PROXY_API_KEY valves <> EmptyString ->
  transport (outbound py_str valves body user) = Got resp ->
  status_code resp < 400 ->
  aiter_end resp = None ->
  List.Forall (fun line => startswith "data: " line = false) (aiter_lines resp) ->
  yielded (run' valves transport body user) = []
  /\ outcome (run' valves transport body user) = Gen.Ok tt
  /\ (DEBUG_MODE valves = false ->
      logged (run_logged' valves transport body user) = []).
Proof.
  intros Hkey Ht Hst Hend Hnone.
  assert (Hdl : data_lines (aiter_lines resp) = []).
  { unfold data_lines. induction Hnone as [|l ls Hl _ IH]; [reflexivity|].
    simpl. now rewrite Hl. }
  assert (Hrun : yielded (run' valves transport body user) = []
                 /\ outcome (run' valves transport body user) = Gen.Ok tt).
  { rewrite (invoke_with_key _ _ _ _ _ _ Hkey), Ht. unfold yielded, outcome.
    run_pipe'; status_facts; try lia; try congruence.
    rewrite Hdl. split; reflexivity. }
  destruct Hrun as [Hy Ho]. split; [exact Hy|]. split; [exact Ho|].
  intros Hd.
  pose proof (levels_without_debug py_str json_loads dumps_indent
                valves transport body user Hd) as Hq.
  rewrite erase_log_invoke in Hq. unfold error_chunks in Hq.
  rewrite Hy in Hq. simpl in Hq.
  destruct (logged _); [reflexivity | discriminate].
Qed.

(** X13. What derives from [BaseException] only (a cancellation, a
    keyboard interrupt) is not turned into an error chunk by the outer
    handlers: raised on entering [client.stream] it leaves the generator
    with nothing yielded, raised in the middle of the stream it leaves the
    generator after the lines already forwarded, and no error chunk is
    yielded in either case. *)
Theorem base_exceptions_propagate valves transport body user e :
  PROXY_API_KEY valves <> EmptyString ->
  is_Exception e = false ->
  (transport (outbound py_str valves body user) = Raises e ->
     yielded (run' valves transport body user) = []
     /\ outcome (run' valves transport body user) = Gen.Raise e)
  /\ (forall resp,
        transport (outbound py_str valves body user) = Got resp ->
        status_code resp < 400 ->
        aiter_end resp = Some e ->
        yielded (run' valves transport body user)
        = map Forwarded (data_lines (aiter_lines resp))
        /\ outcome (run' valves transport body user) = Gen.Raise e).
Proof.
  intros Hkey He. split.
  - intros Ht. rewrite (invoke_with_key _ _ _ _ _ _ Hkey), Ht.
    unfold yielded, outcome, on_failure.
    destruct e as [[] msg]; try discriminate. split; reflexivity.
  - intros resp Ht Hst Hend. rewrite (invoke_with_key _ _ _ _ _ _ Hkey), Ht.
    unfold yielded, outcome.
    run_pipe'; status_facts; try lia; try congruence.
    all: injection Hend as <-; try discriminate.
    split; reflexivity.
Qed.

End MoreFacts.

(** ** Strings: the error payload, the target URL, the user id *)

Lemma length_append (a b : string) :
  String.length (a +:+ b) = (String.length a + String.length b)%nat.
Proof.
  induction a as [|x a IH]; [reflexivity|].
  rewrite append_cons. simpl. now rewrite IH.
Qed.

Lemma append_inj_left (a b c : string) : a +:+ b = a +:+ c -> b = c.
Proof.
  induction a as [|x a IH]; [trivial|].
  rewrite !append_cons. intros H. injection H as H. now apply IH.
Qed.

Lemma append_inj_right (a b c : string) : a +:+ c = b +:+ c -> a = b.
Proof.
  revert b. induction a as [|x a IH]; intros [|y b] H.
  - reflexivity.
  - apply (f_equal String.length) in H. rewrite append_nil, length_append in H.
    simpl in H. lia.
  - apply (f_equal String.length) in H. rewrite append_nil, length_append in H.
    simpl in H. lia.
  - rewrite !append_cons in H. injection H as -> H. f_equal. now apply IH.
Qed.

Lemma printable_append (a b : string) :
  printable_ascii (a +:+ b) = printable_ascii a && printable_ascii b.
Proof.
  induction a as [|x a IH]; [reflexivity|].
  rewrite append_cons. simpl. rewrite IH. now rewrite andb_assoc.
Qed.

Lemma hex_digit_printable (n : N) :
  printable_ascii (chr (Json.hex_digit n)) = true.
Proof.
  destruct n as [|p]; [reflexivity|].
  do 4 (destruct p as [p|p|]; try reflexivity).
Qed.

Lemma printable_cons (c : ascii) (s : string) :
  printable_ascii (String c s)
  = (32 <=? N_of_ascii c)%N && (N_of_ascii c <=? 126)%N && printable_ascii s.
Proof. reflexivity. Qed.

Lemma printable_chr_cons (c : ascii) (s : string) :
  printable_ascii (String c s) = printable_ascii (chr c) && printable_ascii s.
Proof. simpl. now rewrite andb_true_r. Qed.

Lemma hex4_printable (n : N) : printable_ascii (hex4 n) = true.
Proof.
  unfold hex4.
  rewrite 3!printable_chr_cons, !hex_digit_printable. reflexivity.
Qed.

Lemma unicode_escape_printable (n : N) :
  printable_ascii (String backslash ("u" +:+ hex4 n)) = true.
Proof.
  change (String backslash ("u" +:+ hex4 n))
    with (String backslash "u" +:+ hex4 n).
  now rewrite printable_append, hex4_printable.
Qed.

Lemma escape_codepoint_printable (n : N) :
  printable_ascii (escape_codepoint n) = true.
Proof.
  unfold escape_codepoint.
  repeat match goal with
         | |- context [if ?b then _ else _] => destruct b eqn:?; try reflexivity
         end.
  - apply andb_true_iff in Heqb6. destruct Heqb6 as [Hlo Hhi].
    apply N.leb_le in Hlo, Hhi.
    unfold chr. rewrite printable_cons, N_ascii_embedding by lia.
    apply N.leb_le in Hlo, Hhi. now rewrite Hlo, Hhi.
  - apply unicode_escape_printable.
  - now rewrite printable_append, !unicode_escape_printable.
Qed.

Lemma escape_unicode_printable (msg : list N) :
  printable_ascii (escape_unicode msg) = true.
Proof.
  induction msg as [|n msg IH]; [reflexivity|].
  simpl. now rewrite printable_append, escape_codepoint_printable, IH.
Qed.

Example escape_e_acute : escape_codepoint 233 = String backslash "u00e9".
Proof. reflexivity. Qed.

Example escape_check_mark : escape_codepoint 10003 = String backslash "u2713".
Proof. reflexivity. Qed.

Example escape_grinning_face :
  escape_codepoint 128512 = String backslash "ud83d" +:+ String backslash "ude00".
Proof. reflexivity. Qed.

Lemma escape_codepoint_ascii (c : ascii) :
  escape_codepoint (N_of_ascii c) = Json.escape_char c.
Proof. destruct c as [[] [] [] [] [] [] [] []]; reflexivity. Qed.

(** On the strings of the model the two escapes are the same function. *)
Lemma escape_unicode_codepoints (s : string) :
  escape_unicode (codepoints s) = Json.escape s.
Proof.
  induction s as [|c s IH]; [reflexivity|].
  simpl. now rewrite escape_codepoint_ascii, IH.
Qed.

(** X14. Whatever the message (a URL from the configuration, the text of
    an exception, details sent by the remote), over the whole range of
    code points of a Python [str], the text of an error chunk is one line
    of printable ASCII that begins with ["data: {"], followed by the blank
    line: no newline, control character or non-ASCII character of the
    message reaches the host unescaped.  The error chunks of [pipe] as
    modelled above are these texts. *)
Theorem error_chunk_is_one_ascii_line :
  (forall msg : list N,
      exists payload,
        error_frame msg = payload +:+ blank_line
        /\ printable_ascii payload = true
        /\ startswith "data: {" payload = true)
  /\ (forall error_msg : string,
        chunk_text (ErrorChunk error_msg) = error_frame (codepoints error_msg)).
Proof.
  split.
  - intros msg. exists ("data: " +:+ dumps_error_unicode msg).
    split; [|split].
    + unfold error_frame. now rewrite append_assoc.
    + unfold dumps_error_unicode, Json.dumps_str.
      rewrite !printable_append. simpl.
      change (String dquote (escape_unicode msg +:+ chr dquote))
        with (chr dquote +:+ (escape_unicode msg +:+ chr dquote)).
      rewrite !printable_append, escape_unicode_printable. reflexivity.
    + reflexivity.
  - intros error_msg. unfold error_frame, dumps_error_unicode.
    rewrite escape_unicode_codepoints. reflexivity.
Qed.

Lemma rstrip_replicate (n : nat) (c : ascii) : rstrip c (replicate_char n c) = EmptyString.
Proof.
  induction n as [|n IH]; [reflexivity|].
  simpl. rewrite IH, Ascii.eqb_refl. reflexivity.
Qed.

Lemma rstrip_append_replicate (c : ascii) (s : string) (n : nat) :
  rstrip c (s +:+ replicate_char n c) = rstrip c s.
Proof.
  induction s as [|a s IH].
  - rewrite append_nil. apply rstrip_replicate.
  - rewrite append_cons. simpl. now rewrite IH.
Qed.

Lemma endswith_length (q s : string) :
  endswith q s = true -> (String.length q <= String.length s)%nat.
Proof.
  induction s as [|x s IH]; intros H.
  - simpl in H. rewrite orb_false_r in H. apply String.eqb_eq in H. now subst.
  - rewrite endswith_cons in H. apply orb_true_iff in H. destruct H as [H|H].
    + apply String.eqb_eq in H. now subst.
    + apply IH in H. simpl. lia.
Qed.

Lemma eqb_append_right (a b p : string) :
  String.eqb (a +:+ p) (b +:+ p) = String.eqb a b.
Proof.
  destruct (String.eqb_spec a b) as [->|Hne].
  - apply String.eqb_refl.
  - apply String.eqb_neq. intros H. now apply append_inj_right in H.
Qed.

Lemma endswith_append_cancel (a s p : string) :
  endswith (a +:+ p) (s +:+ p) = endswith a s.
Proof.
  induction s as [|x s IH].
  - rewrite append_nil. destruct a as [|y a].
    + rewrite append_nil. apply endswith_refl.
    + destruct (endswith (String y a +:+ p) p) eqn:E; [|reflexivity].
      apply endswith_length in E. rewrite length_append in E. simpl in E. lia.
  - rewrite append_cons, !endswith_cons, IH, <- append_cons, eqb_append_right.
    reflexivity.
Qed.

(** X16. Trailing slashes of [PROXY_URL] never matter: adding any number
    of them gives the same target URL, and a [PROXY_URL] made of slashes
    only (or empty) gives the bare path ["/v1/chat/completions"]. *)
Theorem trailing_slashes_do_not_matter url key timeout debug n :
  target_url (mkValves (url +:+ replicate_char n "/") key timeout debug)
  = target_url (mkValves url key timeout debug)
  /\ target_url (mkValves (replicate_char n "/") key timeout debug)
     = "/v1/chat/completions".
Proof.
  unfold target_url. simpl.
  now rewrite rstrip_append_replicate, rstrip_replicate.
Qed.

(** X17. Every target URL ends with ["/v1/chat/completions"], and never
    with a doubled slash in front of [v1]. *)
Theorem target_url_has_no_double_slash (valves : Valves) :
  endswith "/v1/chat/completions" (target_url valves) = true
  /\ endswith "//v1/chat/completions" (target_url valves) = false.
Proof.
  unfold target_url. split.
  - apply endswith_append.
  - change "//v1/chat/completions" with ("/" +:+ "/v1/chat/completions").
    rewrite endswith_append_cancel. apply rstrip_no_trailing.
Qed.

(** X18. The id of an identified user is never the anonymous id
    ["openwebui-user"], and two identified users get the same id exactly
    when their identifiers have the same text. *)
Theorem user_ids_do_not_collide (py_str : pyval -> string)
    (u1 u2 : gmap string pyval) (id1 id2 : pyval) :
  u1 !! "id" = Some id1 ->
  u2 !! "id" = Some id2 ->
  resolve_user_id py_str (Some u1) <> resolve_user_id py_str None
  /\ (resolve_user_id py_str (Some u1) = resolve_user_id py_str (Some u2)
      <-> py_str id1 = py_str id2).
Proof.
  intros H1 H2. unfold resolve_user_id.
  rewrite (dict_truthy_lookup _ _ _ H1), (dict_truthy_lookup _ _ _ H2), H1, H2.
  split.
  - intros E. discriminate E.
  - split.
    + apply append_inj_left.
    + now intros ->.
Qed.

(** ** The test suite *)








(** ** Further runs on the sample inputs *)

Lemma debugging_has_key : PROXY_API_KEY SampleMore.debugging <> EmptyString.
Proof. vm_compute. discriminate. Qed.

(** A stream that breaks off, [DEBUG_MODE] off: one record, at ERROR. *)
Lemma quiet_without_debug_witness :
  map log_level_of
    (logged (SampleMore.run_logged Sample.keyed
               (Sample.always (Got Sample.broken_stream)) Sample.body0 None))
  = [ERROR].
Proof.
  exact (proj1 (quiet_without_debug Sample.py_str Sample.json_loads
                  SampleMore.dumps_indent Sample.keyed
                  (Sample.always (Got Sample.broken_stream)) Sample.body0 None
                  eq_refl)).
Defined.

(** Two data lines relayed with [DEBUG_MODE] on. *)
Lemma debug_trace_witness :
  logged (SampleMore.run_logged SampleMore.debugging
            (Sample.always (Got (Sample.ok_response Sample.two_lines)))
            Sample.body0 (Some Sample.user0))
  = [ mkLog DEBUG "Processing request for user: openwebui_abc123" false;
      mkLog DEBUG "Request body: {...}" false;
      mkLog DEBUG "Sending request to: http://x/v1/chat/completions" false;
      streaming_record Sample.line1;
      streaming_record Sample.line2 ].
Proof.
  refine (debug_trace_of_a_relay Sample.py_str Sample.json_loads
            SampleMore.dumps_indent SampleMore.debugging
            (Sample.always (Got (Sample.ok_response Sample.two_lines)))
            Sample.body0 (Some Sample.user0) (Sample.ok_response Sample.two_lines)
            eq_refl debugging_has_key eq_refl _ eq_refl).
  simpl. lia.
Defined.

(** The module imported in an empty environment, the key set before
    [Pipe()] is called. *)
Lemma fresh_pipe_without_key_witness :
  SampleMore.environ_with_key !! "TUTOR_GPT_PROXY_API_KEY" = Some "secret"
  /\ yielded (erase_log (SampleMore.run_logged
                           (self_valves (Pipe_new SampleMore.no_environ
                                           SampleMore.environ_with_key))
                           (Sample.always (Got (Sample.ok_response Sample.two_lines)))
                           Sample.body0 None))
     = [ErrorChunk
          "PROXY_API_KEY is not configured. Please set it in the Valves configuration."].
Proof.
  split; [reflexivity|].
  refine (proj1 (fresh_pipe_without_key Sample.py_str Sample.json_loads
                   SampleMore.dumps_indent SampleMore.no_environ
                   SampleMore.environ_with_key
                   (Sample.always (Got (Sample.ok_response Sample.two_lines)))
                   Sample.body0 None _)).
  left. reflexivity.
Defined.

(** The module imported in an environment that only sets the key, the
    variable removed before [Pipe()] is called. *)
Lemma fresh_pipe_with_key_witness :
  exists req,
    sent (Sample.run (self_valves (Pipe_new SampleMore.environ_with_key
                                     SampleMore.no_environ))
            (Sample.always (Raises Sample.connect_exn)) Sample.body0 None) = [req]
    /\ header "Authorization" (req_headers req) = Some "Bearer secret"
    /\ req_url req = "http://localhost:8081/v1/chat/completions".
Proof.
  destruct (fresh_pipe_with_key Sample.py_str Sample.json_loads
              SampleMore.environ_with_key SampleMore.no_environ "secret"
              (Sample.always (Raises Sample.connect_exn)) Sample.body0 None)
    as (req & Hs & Ha & _ & _ & Hu).
  - reflexivity.
  - discriminate.
  - exists req. split; [exact Hs|]. split; [exact Ha|].
    apply Hu. reflexivity.
Defined.

(** The same body with [stream] set to [None] instead of [False]. *)
Lemma stream_field_witness :
  Sample.run Sample.keyed (Sample.always (Got (Sample.ok_response Sample.two_lines)))
    Sample.body0 None
  = Sample.run Sample.keyed (Sample.always (Got (Sample.ok_response Sample.two_lines)))
      (<["stream" := PNone]> Sample.body0) None.
Proof.
  apply (stream_field_is_ignored Sample.py_str Sample.json_loads Sample.keyed).
  - exact keyed_has_key.
  - intros k Hk. symmetry. apply lookup_insert_ne. congruence.
Defined.

(** A 200 whose body holds an [event:] line, a comment and an empty line. *)
Lemma silent_body_witness :
  yielded (Sample.run Sample.keyed (Sample.always (Got SampleMore.not_a_stream))
             Sample.body0 None) = [].
Proof.
  refine (proj1 (body_without_data_lines_is_silent Sample.py_str Sample.json_loads
                   SampleMore.dumps_indent Sample.keyed
                   (Sample.always (Got SampleMore.not_a_stream)) Sample.body0 None
                   SampleMore.not_a_stream keyed_has_key eq_refl _ eq_refl _)).
  - simpl. lia.
  - repeat constructor.
Defined.

(** A cancellation while the request is being sent. *)
Lemma base_exception_witness :
  outcome (Sample.run Sample.keyed (Sample.always (Raises SampleMore.cancelled))
             Sample.body0 None) = Gen.Raise SampleMore.cancelled.
Proof.
  destruct (base_exceptions_propagate Sample.py_str Sample.json_loads Sample.keyed
              (Sample.always (Raises SampleMore.cancelled)) Sample.body0 None
              SampleMore.cancelled keyed_has_key eq_refl) as (Hconnect & _).
  apply Hconnect. reflexivity.
Defined.

(** The users ["abc123"] and ["xyz"]. *)
Lemma user_ids_witness :
  resolve_user_id Sample.py_str (Some Sample.user0)
  <> resolve_user_id Sample.py_str None
  /\ resolve_user_id Sample.py_str (Some Sample.user0)
     <> resolve_user_id Sample.py_str (Some SampleMore.other_user).
Proof.
  destruct (user_ids_do_not_collide Sample.py_str Sample.user0 SampleMore.other_user
              (PStr "abc123") (PStr "xyz") eq_refl eq_refl) as (Hanon & Hsame).
  split; [exact Hanon|].
  intros E. apply Hsame in E. discriminate E.
Defined.


(** ** Direct execution *)

(** X20. Run directly, the module prints four lines: the confirmation,
    the model list, the proxy URL of the environment, and whether a key is
    configured; that last line says "Yes" exactly when a pipe built in the
    same environment sends a request on invocation, and "No" exactly when
    it answers with the configuration error without calling the remote. *)
Theorem main_reports_the_configuration (py_str : pyval -> string)
    (json_loads : string -> option pyval) environ transport body user :
  main environ
  = [ "Tutor-GPT Pipe initialized successfully!";
      "Available models: [{'id': 'tutor-gpt', 'name': 'Bloom Tutor (Tutor-GPT)'}]";
      "Proxy URL: " +:+ getenv environ "TUTOR_GPT_PROXY_URL" "http://localhost:8081";
      "API Key configured: "
      +:+ match sent (invoke py_str json_loads
                        (self_valves (Pipe_new environ environ))
                        transport body user) with
          | [] => "No"
          | _ :: _ => "Yes"
          end ].
Proof.
  unfold main. simpl PROXY_URL.
  destruct (falsy (PROXY_API_KEY (self_valves (Pipe_new environ environ)))) eqn:Hf.
  - apply falsy_empty in Hf. rewrite (invoke_no_key _ _ _ _ _ _ Hf). reflexivity.
  - assert (Hkey : PROXY_API_KEY (self_valves (Pipe_new environ environ))
                   <> EmptyString).
    { intros E. rewrite E in Hf. discriminate. }
    rewrite (sent_outbound _ _ _ _ _ _ Hkey). reflexivity.
Qed.
